(** * LunarLanderAgent: the heuristic landing policy of [lunar_lander_agent.py]

    A shallow embedding of the class [LunarLanderAgent] and of its method
    [get_action], with the properties of the decision policy proved on it.

    Numbers.  The observation is a NumPy vector of floats; the policy only
    adds, multiplies, compares, takes an absolute value and one sine, and the
    properties below concern the branch structure, so scalars are modelled as
    real numbers ([R]).  Non-finite values (NaN, infinities) are outside the
    model.

    Effects.  [get_action] builds and closes a simulator through [make_env],
    reads the configuration dictionary and indexes the observation: the
    embedding threads a [World] (the simulator handles issued so far and the
    trace of simulator events) and Python exceptions through a small
    state-and-exception monad. *)

From Stdlib Require Import Reals Lra ZArith.
From stdpp Require Import base option list gmap strings.

Local Open Scope R_scope.

(** ** Python values, exceptions and outcomes *)

(** The values a configuration dictionary loaded from JSON can hold. *)
Inductive pyval : Type :=
  | PyNone
  | PyBool (b : bool)
  | PyInt (n : Z)
  | PyFloat (r : R)
  | PyStr (s : string).

(** Comparisons of scalars, as booleans. *)
Definition Rltb (a b : R) : bool := if Rlt_dec a b then true else false.
Definition Rgtb (a b : R) : bool := if Rgt_dec a b then true else false.
Definition Reqb (a b : R) : bool := if Req_dec_T a b then true else false.

(** Python's truth value testing, used by [if self.env_config['continuous']]. *)
Definition truthy (v : pyval) : bool :=
  match v with
  | PyNone => false
  | PyBool b => b
  | PyInt n => negb (n =? 0)%Z
  | PyFloat r => negb (Reqb r 0)
  | PyStr s => negb (String.eqb s "")
  end.

Inductive exn : Type :=
  | IndexError
  | KeyError (key : string)
  | GymError.

Inductive outcome (A : Type) : Type :=
  | Returned (a : A)
  | Raised (e : exn).
Arguments Returned {A} a.
Arguments Raised {A} e.

Definition obind {A B : Type} (c : outcome A) (k : A -> outcome B) : outcome B :=
  match c with
  | Returned a => k a
  | Raised e => Raised e
  end.

(** [observation[i]] and [action[i]]: an index out of range raises. *)
Definition getitem (a : list R) (i : nat) : outcome R :=
  match a !! i with
  | Some v => Returned v
  | None => Raised IndexError
  end.

(** [d[key]] on a dictionary: a missing key raises. *)
Definition dict_getitem (d : gmap string pyval) (key : string) : outcome pyval :=
  match d !! key with
  | Some v => Returned v
  | None => Raised (KeyError key)
  end.

(** [d.setdefault(key, v)], for its effect on the dictionary. *)
Definition setdefault (key : string) (v : pyval) (d : gmap string pyval)
  : gmap string pyval :=
  match d !! key with
  | Some _ => d
  | None => <[key := v]> d
  end.

(** ** The simulator, seen from the agent *)

(** What can happen to a simulator: it is made from a configuration, and
    then reset, stepped, rendered and closed through its handle. *)
Inductive event : Type :=
  | EvMake (cfg : gmap string pyval) (env : nat)
  | EvReset (env : nat)
  | EvStep (env : nat)
  | EvRender (env : nat)
  | EvClose (env : nat).

Record World : Type := mkWorld {
  next_env : nat;
  trace : list event
}.

Definition M (A : Type) : Type := World -> outcome A * World.

Definition ret {A : Type} (a : A) : M A := fun w => (Returned a, w).

Definition bind {A B : Type} (c : M A) (k : A -> M B) : M B :=
  fun w =>
    match c w with
    | (Returned a, w') => k a w'
    | (Raised e, w') => (Raised e, w')
    end.

Definition lift {A : Type} (o : outcome A) : M A := fun w => (o, w).

Declare Scope py_scope.
Delimit Scope py_scope with py.
Notation "'do' x <- c ; k" := (bind c (fun x => k))
  (at level 10, x name, c at level 100, k at level 200) : py_scope.
Notation "'run' c ; k" := (bind c (fun _ => k))
  (at level 10, c at level 100, k at level 200) : py_scope.
Notation "'try' x <- c ; k" := (obind c (fun x => k))
  (at level 10, x name, c at level 100, k at level 200) : py_scope.

(** [env.close()]. *)
Definition env_close (env : nat) : M unit :=
  fun w => (Returned tt, mkWorld (next_env w) (trace w ++ [EvClose env])).

(** ** The agent *)

Record LunarLanderAgent : Type := mkAgent {
  env_config : gmap string pyval;
  observation_as_rgb : bool
}.

(** The action [get_action] returns: [Union[int, np.ndarray]]. *)
Inductive action : Type :=
  | ActArray (a : list R)
  | ActInt (n : Z).

(** The locals of [get_action] that are live after the two boosters have
    been computed (lines 62-76). *)
Record Boosters : Type := mkBoosters {
  loc_y : R;
  loc_yv : R;
  yBooster : R;
  xBooster : R
}.

(** [observation[6] == False or observation[7] == False]; [or] does not
    evaluate its second operand when the first one holds. *)
Definition not_landed (observation : list R) : outcome bool :=
  (try c6 <- getitem observation 6 ;
   if Reqb c6 0 then Returned true
   else try c7 <- getitem observation 7 ; Returned (Reqb c7 0))%py.

(** Lines 62-76: the raw continuous command. *)
Definition boosters (observation : list R) : outcome Boosters :=
  (try x <- getitem observation 0 ;
   try y <- getitem observation 1 ;
   try xv <- getitem observation 2 ;
   try yv <- getitem observation 3 ;
   try theta <- getitem observation 4 ;
   try omega <- getitem observation 5 ;
   let yBooster := 0 in
   let xBooster := 0 in
   try flying <- not_landed observation ;
   let yBooster :=
     if flying then
       if Rltb yv 0
       then Rabs yv - (if Rgtb y 0.10 then y / 7 else - 0.10)
       else yBooster
     else yBooster in
   let xBooster := sin theta * 2.5 + omega * 2.5 in
   let xBooster := xBooster - (x * 3 + xv * 4) in
   Returned (mkBoosters y yv yBooster xBooster))%py.

(** Lines 86-98: the discrete command chosen from the raw one. *)
Definition quantize (action : list R) (y yv : R) : outcome Z :=
  (try a0 <- getitem action 0 ;
   try a1 <- getitem action 1 ;
   if Rgtb a0 (Rabs a1) then Returned 2%Z
   else if Rltb y 0.05 then Returned (if Rltb yv (- 0.1) then 2%Z else 0%Z)
   else if Rltb a1 (- 0.5) then Returned 1%Z
   else if Rgtb a1 0.5 then Returned 3%Z
   else if Rgtb yv (- 0.08) && Rgtb y 0.15 then Returned 0%Z
   else Returned (if Rltb yv (- 0.1) then 2%Z else 0%Z))%py.

(** [LunarLanderAgent.set_default_env_config], on the dictionary. *)
Definition set_default_env_config (cfg : gmap string pyval)
  : gmap string pyval :=
  setdefault "id" (PyStr "LunarLander-v2") (setdefault "render_mode" PyNone cfg).

(** [LunarLanderAgent.__init__]. *)
Definition init (cfg : gmap string pyval) : LunarLanderAgent :=
  let cfg := set_default_env_config cfg in
  mkAgent cfg
    match cfg !! "render_mode" with
    | Some (PyStr s) => String.eqb s "rgb_array"
    | _ => false
    end.

Section Agent.

(** [tools.env_config_formatter.convert_str_attr_to_float_env_config] is
    not part of this file: it is taken as a function from the dictionary
    it is given to the dictionary it returns. *)
Variable convert_str_attr_to_float_env_config :
  gmap string pyval -> gmap string pyval.

(** [gym.make] belongs to the simulator library: whether it accepts a
    configuration or raises is a parameter. *)
Variable gym_accepts : gmap string pyval -> bool.

(** [gym.make] on the unpacked dictionary: a fresh simulator, or an
    exception. *)
Definition gym_make (cfg : gmap string pyval) : M nat :=
  fun w =>
    if gym_accepts cfg
    then (Returned (next_env w),
          mkWorld (S (next_env w)) (trace w ++ [EvMake cfg (next_env w)]))
    else (Raised GymError, w).

Definition make_env (self : LunarLanderAgent)
    (arg : option (gmap string pyval)) : M nat :=
  let cfg := match arg with
             | None => env_config self
             | Some c => c
             end in
  let cfg := convert_str_attr_to_float_env_config cfg in
  (do env <- gym_make cfg ; ret env)%py.

Definition get_action (self : LunarLanderAgent) (observation : list R)
  : M action :=
  (do b <- lift (boosters observation) ;
   do env <- make_env self None ;
   run env_close env ;
   let action := [yBooster b; xBooster b] in
   do continuous <- lift (dict_getitem (env_config self) "continuous") ;
   if truthy continuous then ret (ActArray action)
   else do n <- lift (quantize action (loc_y b) (loc_yv b)) ; ret (ActInt n))%py.

End Agent.


(** ** Auxiliary definitions *)

(** The discrete command on a 2-element raw command, as a value. *)
Definition quantized (a0 a1 y yv : R) : Z :=
  if Rgtb a0 (Rabs a1) then 2%Z
  else if Rltb y 0.05 then (if Rltb yv (- 0.1) then 2%Z else 0%Z)
  else if Rltb a1 (- 0.5) then 1%Z
  else if Rgtb a1 0.5 then 3%Z
  else if Rgtb yv (- 0.08) && Rgtb y 0.15 then 0%Z
  else if Rltb yv (- 0.1) then 2%Z else 0%Z.

(** The world after a simulator was made from [cfg] and closed. *)
Definition made_and_closed (cfg : gmap string pyval) (w : World) : World :=
  mkWorld (S (next_env w))
    ((trace w ++ [EvMake cfg (next_env w)]) ++ [EvClose (next_env w)]).

(** The events that only make or close a simulator. *)
Definition lifecycle_only (e : event) : bool :=
  match e with
  | EvMake _ _ | EvClose _ => true
  | EvReset _ | EvStep _ | EvRender _ => false
  end.

(** The simulator an event is about. *)
Definition event_env (e : event) : nat :=
  match e with
  | EvMake _ env | EvReset env | EvStep env | EvRender env | EvClose env => env
  end.

(** The simulators that a trace leaves open: made and not closed since. *)
Definition track (opened : gset nat) (e : event) : gset nat :=
  match e with
  | EvMake _ env => opened ∪ {[ env ]}
  | EvClose env => opened ∖ {[ env ]}
  | EvReset _ | EvStep _ | EvRender _ => opened
  end.

Definition open_envs (t : list event) : gset nat := foldl track ∅ t.

(** A world whose next handle is above every handle of its trace: the
    worlds that [gym_make] and [env_close] build from the empty one. *)
Definition world_ok (w : World) : Prop :=
  Forall (fun e => (event_env e < next_env w)%nat) (trace w).

(** The lander seen in a vertical mirror: horizontal position and speed,
    angle and spin change sign, the two legs are exchanged. *)
Definition mirror (observation : list R) : list R :=
  match observation with
  | [x; y; xv; yv; theta; omega; lc; rc] =>
      [- x; y; - xv; yv; - theta; - omega; rc; lc]
  | _ => observation
  end.

(** The mirrored command: the side engines are exchanged, the lateral
    thrust changes sign. *)
Definition mirror_action (a : action) : action :=
  match a with
  | ActInt 1 => ActInt 3
  | ActInt 3 => ActInt 1
  | ActInt n => ActInt n
  | ActArray [main; lateral] => ActArray [main; - lateral]
  | ActArray v => ActArray v
  end.

Definition mirror_outcome (o : outcome action) : outcome action :=
  match o with
  | Returned a => Returned (mirror_action a)
  | Raised e => Raised e
  end.

(** ** Sample data *)

(** A formatter that returns the dictionary it was given, a simulator
    library that accepts every configuration, an agent for the discrete
    action space and one for the continuous action space. *)
Definition plain_formatter (cfg : gmap string pyval) : gmap string pyval := cfg.
Definition lenient_gym (cfg : gmap string pyval) : bool := true.

Definition discrete_agent : LunarLanderAgent :=
  init {[ "continuous" := PyBool false ]}.
Definition continuous_agent : LunarLanderAgent :=
  init {[ "continuous" := PyBool true ]}.

(** Agents whose configuration has an action-space entry that is not a
    boolean, and one whose configuration has none. *)
Definition none_mode_agent : LunarLanderAgent :=
  init {[ "continuous" := PyNone ]}.
Definition text_mode_agent : LunarLanderAgent :=
  init {[ "continuous" := PyStr "sideways" ]}.
Definition modeless_agent : LunarLanderAgent := init ∅.

Definition fresh_world : World := mkWorld 0 [].

(** A simulator library that accepts no configuration, and a world in
    which two simulators were made and the first one closed. *)
Definition closed_gym (cfg : gmap string pyval) : bool := false.
Definition busy_world : World :=
  mkWorld 2 [EvMake ∅ 0; EvMake ∅ 1; EvClose 0].

(** ** Properties *)

Ltac case_R :=
  repeat match goal with
  | |- context [Rlt_dec ?a ?b] => destruct (Rlt_dec a b)
  | |- context [Rgt_dec ?a ?b] => destruct (Rgt_dec a b)
  | |- context [Req_dec_T ?a ?b] => destruct (Req_dec_T a b)
  | |- context [Rcase_abs ?a] => destruct (Rcase_abs a)
  end.

Ltac case_R_in H :=
  repeat match type of H with
  | context [Rlt_dec ?a ?b] => destruct (Rlt_dec a b)
  | context [Rgt_dec ?a ?b] => destruct (Rgt_dec a b)
  | context [Req_dec_T ?a ?b] => destruct (Req_dec_T a b)
  | context [Rcase_abs ?a] => destruct (Rcase_abs a)
  end.

Ltac solve_R :=
  unfold Rltb, Rgtb, Reqb, Rabs in *; case_R;
  cbn [andb orb negb] in *; try reflexivity; try lra; try discriminate.

(** The raw command on an 8-element observation. *)
Lemma boosters_eq (x y xv yv theta omega lc rc : R) :
  boosters [x; y; xv; yv; theta; omega; lc; rc] =
  Returned (mkBoosters y yv
    (if Reqb lc 0 || Reqb rc 0
     then if Rltb yv 0
          then Rabs yv - (if Rgtb y 0.10 then y / 7 else - 0.10) else 0
     else 0)
    (sin theta * 2.5 + omega * 2.5 - (x * 3 + xv * 4))).
Proof.
  unfold boosters, not_landed, getitem; cbn [lookup list_lookup obind].
  destruct (Reqb lc 0); cbn [obind orb]; [reflexivity|].
  destruct (Reqb rc 0); reflexivity.
Qed.

Lemma quantize_eq (a0 a1 y yv : R) :
  quantize [a0; a1] y yv = Returned (quantized a0 a1 y yv).
Proof.
  unfold quantize, quantized, getitem; cbn [lookup list_lookup obind].
  repeat match goal with |- context [if ?c then _ else _] => destruct c end;
    reflexivity.
Qed.

Section Policy.

Variable formatter : gmap string pyval -> gmap string pyval.
Variable accepts : gmap string pyval -> bool.

(** [get_action], one path at a time. *)
Lemma get_action_eq (self : LunarLanderAgent) (observation : list R) (w : World) :
  get_action formatter accepts self observation w =
  match boosters observation with
  | Raised e => (Raised e, w)
  | Returned b =>
    if accepts (formatter (env_config self)) then
      let w' := made_and_closed (formatter (env_config self)) w in
      match env_config self !! "continuous" with
      | None => (Raised (KeyError "continuous"), w')
      | Some c =>
        if truthy c then (Returned (ActArray [yBooster b; xBooster b]), w')
        else (Returned (ActInt (quantized (yBooster b) (xBooster b)
                                          (loc_y b) (loc_yv b))), w')
      end
    else (Raised GymError, w)
  end.
Proof.
  unfold get_action, bind, lift, make_env, gym_make, env_close, ret,
    dict_getitem, made_and_closed.
  destruct (boosters observation) as [b|e]; [|reflexivity].
  unfold bind; destruct (accepts _); [|reflexivity]. cbn [next_env trace].
  destruct (env_config self !! "continuous") as [c|]; [|reflexivity].
  destruct (truthy c); [reflexivity|].
  rewrite quantize_eq. reflexivity.
Qed.

(** C1: on every 8-element observation the main-thrust component of the
    raw command is [|yv| - (y/7 if y > 0.10 else -0.10)] when a contact
    flag is false and [yv < 0], and [0] otherwise; this raw command is the
    one both action spaces use: the continuous one returns it, the discrete
    one quantizes it. *)
Theorem yBooster_law (x y xv yv theta omega lc rc : R) :
  let observation := [x; y; xv; yv; theta; omega; lc; rc] in
  exists b : Boosters,
    boosters observation = Returned b
    /\ ((lc = 0 \/ rc = 0) /\ yv < 0 ->
        yBooster b = Rabs yv - (if Rgt_dec y 0.10 then y / 7 else - 0.10))
    /\ (~ ((lc = 0 \/ rc = 0) /\ yv < 0) -> yBooster b = 0)
    /\ (forall (self : LunarLanderAgent) (w : World) (c : pyval),
          env_config self !! "continuous" = Some c ->
          accepts (formatter (env_config self)) = true ->
          fst (get_action formatter accepts self observation w) =
          if truthy c
          then Returned (ActArray [yBooster b; xBooster b])
          else match quantize [yBooster b; xBooster b] y yv with
               | Returned n => Returned (ActInt n)
               | Raised e => Raised e
               end).
Proof.
  intros observation; subst observation.
  eexists; split; [apply boosters_eq|]; cbn [yBooster xBooster].
  split; [|split].
  - intros [[Hl|Hr] Hyv]; subst; solve_R.
  - intros Hn. solve_R; exfalso; apply Hn; split; auto.
  - intros self w c Hc Hacc.
    rewrite get_action_eq, boosters_eq, Hacc, Hc; cbn [yBooster xBooster loc_y loc_yv].
    rewrite quantize_eq. destruct (truthy c); reflexivity.
Qed.

(** C2: on every 8-element observation the lateral component of the raw
    command is [sin(theta)*2.5 + omega*2.5 - (x*3 + xv*4)], whatever the
    contact flags are; the continuous action space returns it as the second
    component, the discrete one quantizes it. *)
Theorem xBooster_law (x y xv yv theta omega lc rc : R) :
  let observation := [x; y; xv; yv; theta; omega; lc; rc] in
  exists b : Boosters,
    boosters observation = Returned b
    /\ xBooster b = sin theta * 2.5 + omega * 2.5 - (x * 3 + xv * 4)
    /\ (forall (self : LunarLanderAgent) (w : World) (c : pyval),
          env_config self !! "continuous" = Some c ->
          accepts (formatter (env_config self)) = true ->
          fst (get_action formatter accepts self observation w) =
          if truthy c
          then Returned (ActArray
                 [yBooster b; sin theta * 2.5 + omega * 2.5 - (x * 3 + xv * 4)])
          else match quantize
                 [yBooster b; sin theta * 2.5 + omega * 2.5 - (x * 3 + xv * 4)]
                 y yv with
               | Returned n => Returned (ActInt n)
               | Raised e => Raised e
               end).
Proof.
  intros observation; subst observation.
  eexists; split; [apply boosters_eq|]; cbn [yBooster xBooster].
  split; [reflexivity|].
  intros self w c Hc Hacc.
  rewrite get_action_eq, boosters_eq, Hacc, Hc; cbn [yBooster xBooster loc_y loc_yv].
  rewrite quantize_eq. destruct (truthy c); reflexivity.
Qed.

(** What [get_action] returns in the discrete action space. *)
Lemma get_action_discrete (self : LunarLanderAgent)
    (x y xv yv theta omega lc rc : R) (w : World) (c : pyval) (b : Boosters) :
  env_config self !! "continuous" = Some c ->
  truthy c = false ->
  accepts (formatter (env_config self)) = true ->
  boosters [x; y; xv; yv; theta; omega; lc; rc] = Returned b ->
  fst (get_action formatter accepts self [x; y; xv; yv; theta; omega; lc; rc] w) =
  Returned (ActInt (quantized (yBooster b) (xBooster b) y yv)).
Proof.
  intros Hc Ht Hacc Hb.
  rewrite get_action_eq, Hb, Hacc, Hc, Ht.
  rewrite boosters_eq in Hb. injection Hb as <-. reflexivity.
Qed.

(** C3: in the discrete action space, when the raw command has
    [yBooster > |xBooster|] the action is FIRE_MAIN (2), whatever [y], [yv]
    and the contact flags are. *)
Theorem fire_main_dominates (self : LunarLanderAgent)
    (x y xv yv theta omega lc rc : R) (w : World) (c : pyval) (b : Boosters) :
  env_config self !! "continuous" = Some c ->
  truthy c = false ->
  accepts (formatter (env_config self)) = true ->
  boosters [x; y; xv; yv; theta; omega; lc; rc] = Returned b ->
  yBooster b > Rabs (xBooster b) ->
  fst (get_action formatter accepts self [x; y; xv; yv; theta; omega; lc; rc] w) =
  Returned (ActInt 2).
Proof.
  intros Hc Ht Hacc Hb Hdom.
  rewrite (get_action_discrete _ _ _ _ _ _ _ _ _ _ _ _ Hc Ht Hacc Hb).
  unfold quantized, Rgtb. destruct (Rgt_dec _ _); [reflexivity|contradiction].
Qed.

(** C4: in the discrete action space, when [yBooster <= |xBooster|]: below
    [y = 0.05] the action is FIRE_MAIN (2) if [yv < -0.1] and NOOP (0)
    otherwise; from [y = 0.05] up it is FIRE_LEFT (1) if [xBooster < -0.5],
    FIRE_RIGHT (3) if [xBooster > 0.5], and otherwise NOOP if [yv > -0.08]
    and [y > 0.15], else FIRE_MAIN if [yv < -0.1] and NOOP otherwise. *)
Theorem near_ground_and_lateral_rules (self : LunarLanderAgent)
    (x y xv yv theta omega lc rc : R) (w : World) (c : pyval) (b : Boosters) :
  env_config self !! "continuous" = Some c ->
  truthy c = false ->
  accepts (formatter (env_config self)) = true ->
  boosters [x; y; xv; yv; theta; omega; lc; rc] = Returned b ->
  yBooster b <= Rabs (xBooster b) ->
  let a :=
    fst (get_action formatter accepts self [x; y; xv; yv; theta; omega; lc; rc] w) in
  (y < 0.05 -> yv < - 0.1 -> a = Returned (ActInt 2))
  /\ (y < 0.05 -> ~ yv < - 0.1 -> a = Returned (ActInt 0))
  /\ (y >= 0.05 -> xBooster b < - 0.5 -> a = Returned (ActInt 1))
  /\ (y >= 0.05 -> xBooster b > 0.5 -> a = Returned (ActInt 3))
  /\ (y >= 0.05 -> - 0.5 <= xBooster b <= 0.5 ->
      yv > - 0.08 /\ y > 0.15 -> a = Returned (ActInt 0))
  /\ (y >= 0.05 -> - 0.5 <= xBooster b <= 0.5 ->
      ~ (yv > - 0.08 /\ y > 0.15) -> yv < - 0.1 -> a = Returned (ActInt 2))
  /\ (y >= 0.05 -> - 0.5 <= xBooster b <= 0.5 ->
      ~ (yv > - 0.08 /\ y > 0.15) -> ~ yv < - 0.1 -> a = Returned (ActInt 0)).
Proof.
  intros Hc Ht Hacc Hb Hdom a; subst a.
  rewrite (get_action_discrete _ _ _ _ _ _ _ _ _ _ _ _ Hc Ht Hacc Hb).
  unfold quantized.
  destruct (Rgtb (yBooster b) (Rabs (xBooster b))) eqn:Hgt.
  { unfold Rgtb in Hgt. destruct (Rgt_dec _ _); [lra|discriminate]. }
  clear Hgt Hdom Hb. generalize (xBooster b); intros xb.
  repeat split; intros; unfold Rltb, Rgtb; case_R; cbn [andb];
    try reflexivity; try lra; exfalso; intuition lra.
Qed.

(** C5 (as amended): a call that gets past reading the observation asks
    [make_env] for a simulator: when the simulator library accepts the
    formatted configuration one simulator is made and closed at once, when
    it rejects it nothing is made; a call that fails on the observation
    makes nothing either.  That is all a call does to the world: no
    simulator is ever reset, stepped or rendered. *)
Theorem get_action_makes_and_closes (self : LunarLanderAgent)
    (observation : list R) (w : World) :
  let w' := snd (get_action formatter accepts self observation w) in
  let cfg := formatter (env_config self) in
  (forall b : Boosters,
     boosters observation = Returned b -> accepts cfg = true ->
     w' = made_and_closed cfg w)
  /\ (forall b : Boosters,
        boosters observation = Returned b -> accepts cfg = false -> w' = w)
  /\ (forall e : exn, boosters observation = Raised e -> w' = w)
  /\ exists evs : list event,
       trace w' = trace w ++ evs
       /\ (evs = [] \/ length evs = 2%nat)
       /\ forallb lifecycle_only evs = true.
Proof.
  intros w' cfg; subst w' cfg. rewrite get_action_eq.
  assert (Hmade : exists evs : list event,
            trace (made_and_closed (formatter (env_config self)) w) =
              trace w ++ evs
            /\ (evs = [] \/ length evs = 2%nat)
            /\ forallb lifecycle_only evs = true).
  { exists [EvMake (formatter (env_config self)) (next_env w);
            EvClose (next_env w)].
    unfold made_and_closed; cbn [trace]. rewrite <- app_assoc.
    split; [reflexivity|]. split; [right; reflexivity | reflexivity]. }
  assert (Hnone : exists evs : list event,
            trace w = trace w ++ evs
            /\ (evs = [] \/ length evs = 2%nat)
            /\ forallb lifecycle_only evs = true).
  { exists []. rewrite app_nil_r.
    split; [reflexivity|]. split; [left; reflexivity | reflexivity]. }
  destruct (boosters observation) as [b|e].
  - destruct (accepts (formatter (env_config self))) eqn:Hacc.
    + assert (Hw : snd (match env_config self !! "continuous" with
                        | Some c =>
                            if truthy c
                            then (Returned (ActArray [yBooster b; xBooster b]),
                                  made_and_closed (formatter (env_config self)) w)
                            else (Returned (ActInt (quantized (yBooster b)
                                     (xBooster b) (loc_y b) (loc_yv b))),
                                  made_and_closed (formatter (env_config self)) w)
                        | None =>
                            (Raised (KeyError "continuous"),
                             made_and_closed (formatter (env_config self)) w)
                        end) = made_and_closed (formatter (env_config self)) w).
      { destruct (env_config self !! "continuous") as [c|]; [|reflexivity].
        destruct (truthy c); reflexivity. }
      cbv zeta. rewrite Hw. split; [intros; reflexivity|].
      split; [intros; discriminate|]. split; [intros; discriminate|].
      exact Hmade.
    + cbn [snd]. split; [intros; discriminate|].
      split; [intros; reflexivity|]. split; [intros; discriminate|].
      exact Hnone.
  - cbn [snd]. split; [intros; discriminate|].
    split; [intros; discriminate|]. split; [intros; reflexivity|].
    exact Hnone.
Qed.

(** C6 (as amended): the action space is not validated.  On an
    observation of eight entries, when the simulator library accepts the
    configuration the entry ['continuous'] is tested for its truth value:
    every entry selects one of the two action spaces without an error, and
    a configuration with no such entry fails with the dictionary's
    [KeyError]; when the simulator library rejects the configuration the
    call raises before the entry is read, whatever it is. *)
Theorem mode_is_a_truth_value (self : LunarLanderAgent)
    (x y xv yv theta omega lc rc : R) (w : World) :
  let observation := [x; y; xv; yv; theta; omega; lc; rc] in
  let r := fst (get_action formatter accepts self observation w) in
  let cfg := formatter (env_config self) in
  (accepts cfg = true ->
     (forall c : pyval, env_config self !! "continuous" = Some c ->
        (truthy c = true -> exists a : list R, r = Returned (ActArray a))
        /\ (truthy c = false -> exists n : Z, r = Returned (ActInt n)))
     /\ (env_config self !! "continuous" = None ->
         r = Raised (KeyError "continuous")))
  /\ (accepts cfg = false -> r = Raised GymError).
Proof.
  intros observation r cfg; subst observation r cfg.
  rewrite get_action_eq, boosters_eq. split.
  - intros Hacc; rewrite Hacc. split.
    + intros c Hc; rewrite Hc.
      split; intros Ht; rewrite Ht; eexists; reflexivity.
    + intros Hc; rewrite Hc. reflexivity.
  - intros Hacc; rewrite Hacc. reflexivity.
Qed.

(** C7 (as amended): on an observation of eight entries and with an
    action-space entry in the configuration, [get_action] returns whenever
    the simulator library accepts the configuration: the raw pair
    [(yBooster, xBooster)] as it is in the continuous action space, an
    integer among 0, 1, 2 and 3 in the discrete one; when the simulator
    library rejects the configuration the call raises instead. *)
Theorem get_action_returns_unless_rejected (self : LunarLanderAgent)
    (x y xv yv theta omega lc rc : R) (w : World) (c : pyval) :
  env_config self !! "continuous" = Some c ->
  let observation := [x; y; xv; yv; theta; omega; lc; rc] in
  let r := fst (get_action formatter accepts self observation w) in
  exists b : Boosters,
    boosters observation = Returned b
    /\ (accepts (formatter (env_config self)) = true ->
        exists a : action,
          r = Returned a
          /\ (truthy c = true -> a = ActArray [yBooster b; xBooster b])
          /\ (truthy c = false ->
              exists n : Z,
                a = ActInt n /\ (n = 0 \/ n = 1 \/ n = 2 \/ n = 3)%Z))
    /\ (accepts (formatter (env_config self)) = false -> r = Raised GymError).
Proof.
  intros Hc observation r; subst observation r.
  eexists. split; [apply boosters_eq|].
  rewrite get_action_eq, boosters_eq. split.
  - intros Hacc; rewrite Hacc, Hc. destruct (truthy c) eqn:Ht.
    + eexists. split; [reflexivity|]. split; [reflexivity | discriminate].
    + eexists. split; [reflexivity|]. split; [discriminate|]. intros _.
      eexists; split; [reflexivity|].
      unfold quantized.
      repeat match goal with |- context [if ?t then _ else _] => destruct t end;
        auto.
  - intros Hacc; rewrite Hacc. reflexivity.
Qed.

(** C8: [get_action] is deterministic and keeps no memory: its result does
    not depend on the world it runs in, so a second call on the same
    observation, made after the first one, returns the same result. *)
Theorem get_action_deterministic (self : LunarLanderAgent)
    (observation : list R) (w : World) :
  fst (get_action formatter accepts self observation
         (snd (get_action formatter accepts self observation w))) =
  fst (get_action formatter accepts self observation w)
  /\ forall w' : World,
       fst (get_action formatter accepts self observation w') =
       fst (get_action formatter accepts self observation w).
Proof.
  assert (H : forall w1 w2 : World,
             fst (get_action formatter accepts self observation w1) =
             fst (get_action formatter accepts self observation w2)).
  { intros w1 w2. rewrite !get_action_eq.
    destruct (boosters observation) as [b|e]; [|reflexivity].
    destruct (accepts _); [|reflexivity].
    destruct (env_config self !! "continuous") as [c|]; [|reflexivity].
    destruct (truthy c); reflexivity. }
  split; [apply H | intros w'; apply H].
Qed.

(** C9: in the discrete action space, if the action is NOOP (0) then
    [yv >= -0.1]. *)
Theorem noop_only_when_slow (self : LunarLanderAgent)
    (x y xv yv theta omega lc rc : R) (w : World) (c : pyval) :
  env_config self !! "continuous" = Some c ->
  truthy c = false ->
  fst (get_action formatter accepts self [x; y; xv; yv; theta; omega; lc; rc] w) =
    Returned (ActInt 0) ->
  yv >= - 0.1.
Proof.
  intros Hc Ht. rewrite get_action_eq, boosters_eq.
  destruct (accepts _); [|discriminate].
  rewrite Hc, Ht; cbn [fst yBooster xBooster loc_y loc_yv].
  generalize (sin theta * 2.5 + omega * 2.5 - (x * 3 + xv * 4)); intros xb.
  unfold quantized.
  destruct (Rgtb _ (Rabs xb)); [intros H; discriminate H|].
  unfold Rltb, Rgtb. intros H.
  case_R_in H; cbn [andb] in H; try discriminate H; lra.
Qed.

(** C10: in the discrete action space, when both contact flags are true
    the action is FIRE_MAIN (2) only if [yv < -0.1]. *)
Theorem landed_fires_main_only_when_sinking (self : LunarLanderAgent)
    (x y xv yv theta omega lc rc : R) (w : World) (c : pyval) :
  env_config self !! "continuous" = Some c ->
  truthy c = false ->
  lc <> 0 -> rc <> 0 ->
  fst (get_action formatter accepts self [x; y; xv; yv; theta; omega; lc; rc] w) =
    Returned (ActInt 2) ->
  yv < - 0.1.
Proof.
  intros Hc Ht Hl Hr. rewrite get_action_eq, boosters_eq.
  destruct (accepts _); [|discriminate].
  rewrite Hc, Ht; cbn [fst yBooster xBooster loc_y loc_yv].
  assert (Hlc : Reqb lc 0 = false) by (unfold Reqb; destruct (Req_dec_T lc 0); tauto).
  assert (Hrc : Reqb rc 0 = false) by (unfold Reqb; destruct (Req_dec_T rc 0); tauto).
  rewrite Hlc, Hrc; cbn [orb].
  generalize (sin theta * 2.5 + omega * 2.5 - (x * 3 + xv * 4)); intros xb.
  unfold quantized. 
  assert (Hno : Rgtb 0 (Rabs xb) = false).
  { unfold Rgtb. destruct (Rgt_dec 0 (Rabs xb)) as [Hgt|]; [|reflexivity].
    pose proof (Rabs_pos xb). lra. }
  rewrite Hno. unfold Rltb, Rgtb. intros H.
  case_R_in H; cbn [andb] in H; try discriminate H; lra.
Qed.

End Policy.

(** ** The sample agents and runs *)

Lemma discrete_agent_mode :
  env_config discrete_agent !! "continuous" = Some (PyBool false).
Proof. reflexivity. Qed.

Lemma continuous_agent_mode :
  env_config continuous_agent !! "continuous" = Some (PyBool true).
Proof. reflexivity. Qed.

Lemma none_mode_agent_mode :
  env_config none_mode_agent !! "continuous" = Some PyNone.
Proof. reflexivity. Qed.

Lemma text_mode_agent_mode :
  env_config text_mode_agent !! "continuous" = Some (PyStr "sideways").
Proof. reflexivity. Qed.

Lemma modeless_agent_mode :
  env_config modeless_agent !! "continuous" = None.
Proof. reflexivity. Qed.

Lemma Rltb_true (a b : R) : a < b -> Rltb a b = true.
Proof. unfold Rltb; destruct (Rlt_dec a b); tauto. Qed.

Lemma Rltb_false (a b : R) : ~ a < b -> Rltb a b = false.
Proof. unfold Rltb; destruct (Rlt_dec a b); tauto. Qed.

Lemma Rgtb_true (a b : R) : a > b -> Rgtb a b = true.
Proof. unfold Rgtb; destruct (Rgt_dec a b); tauto. Qed.

Lemma Rgtb_false (a b : R) : ~ a > b -> Rgtb a b = false.
Proof. unfold Rgtb; destruct (Rgt_dec a b); tauto. Qed.

Lemma Reqb_true (a b : R) : a = b -> Reqb a b = true.
Proof. unfold Reqb; destruct (Req_dec_T a b); tauto. Qed.

Lemma Reqb_false (a b : R) : a <> b -> Reqb a b = false.
Proof. unfold Reqb; destruct (Req_dec_T a b); tauto. Qed.

(** Evaluation of the comparisons of a run on concrete numbers, innermost
    first. *)
Ltac eval_R :=
  repeat first
    [ progress cbn [andb orb negb]
    | match goal with
    | |- context [Rabs ?a] =>
        first [rewrite (Rabs_pos_eq a) by lra | rewrite (Rabs_left1 a) by lra]
    | |- context [Reqb ?a ?b] =>
        first [rewrite (Reqb_true a b) by lra | rewrite (Reqb_false a b) by lra]
    | |- context [Rltb ?a ?b] =>
        first [rewrite (Rltb_true a b) by lra | rewrite (Rltb_false a b) by lra]
    | |- context [Rgtb ?a ?b] =>
        first [rewrite (Rgtb_true a b) by lra | rewrite (Rgtb_false a b) by lra]
      end ].

Ltac run_get_action Hmode :=
  rewrite get_action_eq, boosters_eq; unfold lenient_gym, plain_formatter;
  rewrite Hmode; cbn [truthy negb fst snd yBooster xBooster loc_y loc_yv];
  unfold quantized; rewrite ?sin_0; eval_R.

(** Hovering high above the pad with both legs reported in contact: the
    discrete agent coasts. *)
Lemma discrete_agent_coasts :
  fst (get_action plain_formatter lenient_gym discrete_agent
         [0; 0.3; 0; 0; 0; 0; 1; 1] fresh_world) = Returned (ActInt 0).
Proof. run_get_action discrete_agent_mode. reflexivity. Qed.

(** Sinking fast with both legs in contact: the discrete agent fires the
    main engine. *)
Lemma discrete_agent_brakes :
  fst (get_action plain_formatter lenient_gym discrete_agent
         [0; 0; 0; - 0.5; 0; 0; 1; 1] fresh_world) = Returned (ActInt 2).
Proof. run_get_action discrete_agent_mode. reflexivity. Qed.

(** The vertical term on both sides of the altitude threshold, and on the
    ground. *)
Example yBooster_above_threshold :
  exists b : Boosters,
    boosters [0; 0.7; 0; - 1; 0; 0; 0; 1] = Returned b /\ yBooster b = 0.9.
Proof.
  eexists; split; [apply boosters_eq|]. cbn [yBooster]. eval_R. lra.
Qed.

Example yBooster_below_threshold :
  exists b : Boosters,
    boosters [0; 0.05; 0; - 1; 0; 0; 1; 0] = Returned b /\ yBooster b = 1.1.
Proof.
  eexists; split; [apply boosters_eq|]. cbn [yBooster]. eval_R. lra.
Qed.

Example yBooster_landed :
  exists b : Boosters,
    boosters [0; 0; 0; - 1; 0; 0; 1; 1] = Returned b /\ yBooster b = 0.
Proof.
  eexists; split; [apply boosters_eq|]. cbn [yBooster]. eval_R. reflexivity.
Qed.

(** An observation that is too short raises before any simulator is made. *)
Example short_observation_raises :
  get_action plain_formatter lenient_gym discrete_agent [0; 1; 0] fresh_world =
  (Raised IndexError, fresh_world).
Proof. rewrite get_action_eq. reflexivity. Qed.

(** ** The theorems at work on the sample agents *)

(** Just above the ground and sinking slowly, with both legs in the air:
    the raw command is [(0.15, 0)], so FIRE_MAIN is chosen although the
    near-ground rule alone would coast. *)
Lemma fire_main_dominates_witness :
  0.01 < 0.05 /\ ~ - 0.05 < - 0.1
  /\ fst (get_action plain_formatter lenient_gym discrete_agent
            [0; 0.01; 0; - 0.05; 0; 0; 0; 0] fresh_world) = Returned (ActInt 2).
Proof.
  split; [lra|]. split; [lra|].
  eapply (fire_main_dominates plain_formatter lenient_gym discrete_agent
            0 0.01 0 (- 0.05) 0 0 0 0 fresh_world (PyBool false));
    [exact discrete_agent_mode | reflexivity | reflexivity | apply boosters_eq |].
  cbn [yBooster xBooster]. rewrite sin_0. eval_R. lra.
Defined.

Lemma near_ground_and_lateral_rules_witness :
  fst (get_action plain_formatter lenient_gym discrete_agent
         [0; 0.3; 0; 0; 0; 0; 1; 1] fresh_world) = Returned (ActInt 0).
Proof.
  assert (Hdom :
    yBooster (mkBoosters 0.3 0
      (if Reqb 1 0 || Reqb 1 0
       then if Rltb 0 0
            then Rabs 0 - (if Rgtb 0.3 0.10 then 0.3 / 7 else - 0.10) else 0
       else 0)
      (sin 0 * 2.5 + 0 * 2.5 - (0 * 3 + 0 * 4)))
    <= Rabs (xBooster (mkBoosters 0.3 0
      (if Reqb 1 0 || Reqb 1 0
       then if Rltb 0 0
            then Rabs 0 - (if Rgtb 0.3 0.10 then 0.3 / 7 else - 0.10) else 0
       else 0)
      (sin 0 * 2.5 + 0 * 2.5 - (0 * 3 + 0 * 4))))).
  { cbn [yBooster xBooster]. rewrite sin_0. eval_R. lra. }
  pose proof (near_ground_and_lateral_rules plain_formatter lenient_gym
                discrete_agent 0 0.3 0 0 0 0 1 1 fresh_world (PyBool false) _
                discrete_agent_mode eq_refl eq_refl
                (boosters_eq 0 0.3 0 0 0 0 1 1) Hdom) as H.
  cbv zeta in H. cbn [xBooster] in H. rewrite sin_0 in H.
  destruct H as (_ & _ & _ & _ & H & _).
  apply H; [lra | split; lra | split; lra].
Defined.

(** C5, refuted as stated: one call of [get_action] in a world without any
    simulator leaves a world in which a simulator has been made (and
    closed). *)
Lemma get_action_allocates_a_simulator :
  snd (get_action plain_formatter lenient_gym discrete_agent
         [0; 1; 0; 0; 0; 0; 0; 0] fresh_world) =
  mkWorld 1 [EvMake (env_config discrete_agent) 0; EvClose 0].
Proof.
  rewrite get_action_eq, boosters_eq; unfold lenient_gym, plain_formatter.
  rewrite discrete_agent_mode. reflexivity.
Qed.

Lemma get_action_makes_and_closes_witness :
  snd (get_action plain_formatter lenient_gym continuous_agent
         [0; 1; 0; - 1; 0; 0; 0; 0] fresh_world) =
  made_and_closed (plain_formatter (env_config continuous_agent)) fresh_world.
Proof.
  exact (proj1 (get_action_makes_and_closes plain_formatter lenient_gym
                  continuous_agent [0; 1; 0; - 1; 0; 0; 0; 0] fresh_world)
           _ (boosters_eq 0 1 0 (- 1) 0 0 0 0) eq_refl).
Defined.

(** C6, refuted as stated: an action-space entry that is neither [True]
    nor [False] raises nothing; [None] is taken for the discrete action
    space and a text for the continuous one. *)
Lemma unrecognized_mode_is_accepted :
  fst (get_action plain_formatter lenient_gym none_mode_agent
         [0; 1; 0; 0; 0; 0; 0; 0] fresh_world) = Returned (ActInt 0)
  /\ fst (get_action plain_formatter lenient_gym text_mode_agent
            [0; 1; 0; 0; 0; 0; 0; 0] fresh_world) =
     Returned (ActArray [0; sin 0 * 2.5 + 0 * 2.5 - (0 * 3 + 0 * 4)]).
Proof.
  split.
  - run_get_action none_mode_agent_mode. reflexivity.
  - rewrite get_action_eq, boosters_eq; unfold lenient_gym, plain_formatter.
    rewrite text_mode_agent_mode; cbn [truthy String.eqb negb fst yBooster xBooster].
    eval_R. reflexivity.
Qed.

(** Without any action-space entry the [KeyError] of the dictionary is
    what the caller gets. *)
Lemma mode_is_a_truth_value_witness :
  fst (get_action plain_formatter lenient_gym modeless_agent
         [0; 1; 0; 0; 0; 0; 0; 0] fresh_world) = Raised (KeyError "continuous").
Proof.
  exact (proj2 (proj1 (mode_is_a_truth_value plain_formatter lenient_gym
                         modeless_agent 0 1 0 0 0 0 0 0 fresh_world) eq_refl)
           modeless_agent_mode).
Defined.

Lemma get_action_returns_unless_rejected_witness :
  exists b : Boosters,
    boosters [0; 1; 0; - 1; 0; 0; 0; 0] = Returned b
    /\ (lenient_gym (plain_formatter (env_config continuous_agent)) = true ->
        exists a : action,
          fst (get_action plain_formatter lenient_gym continuous_agent
                 [0; 1; 0; - 1; 0; 0; 0; 0] fresh_world) = Returned a
          /\ (truthy (PyBool true) = true -> a = ActArray [yBooster b; xBooster b])
          /\ (truthy (PyBool true) = false ->
              exists n : Z,
                a = ActInt n /\ (n = 0 \/ n = 1 \/ n = 2 \/ n = 3)%Z))
    /\ (lenient_gym (plain_formatter (env_config continuous_agent)) = false ->
        fst (get_action plain_formatter lenient_gym continuous_agent
               [0; 1; 0; - 1; 0; 0; 0; 0] fresh_world) = Raised GymError).
Proof.
  exact (get_action_returns_unless_rejected plain_formatter lenient_gym
           continuous_agent 0 1 0 (- 1) 0 0 0 0 fresh_world (PyBool true)
           continuous_agent_mode).
Defined.

Lemma noop_only_when_slow_witness :
  fst (get_action plain_formatter lenient_gym discrete_agent
         [0; 0.3; 0; 0; 0; 0; 1; 1] fresh_world) = Returned (ActInt 0)
  /\ 0 >= - 0.1.
Proof.
  split; [exact discrete_agent_coasts|].
  exact (noop_only_when_slow plain_formatter lenient_gym discrete_agent
           0 0.3 0 0 0 0 1 1 fresh_world (PyBool false)
           discrete_agent_mode eq_refl discrete_agent_coasts).
Defined.

Lemma landed_fires_main_only_when_sinking_witness :
  fst (get_action plain_formatter lenient_gym discrete_agent
         [0; 0; 0; - 0.5; 0; 0; 1; 1] fresh_world) = Returned (ActInt 2)
  /\ - 0.5 < - 0.1.
Proof.
  split; [exact discrete_agent_brakes|].
  apply (landed_fires_main_only_when_sinking plain_formatter lenient_gym
           discrete_agent 0 0 0 (- 0.5) 0 0 1 1 fresh_world (PyBool false)
           discrete_agent_mode eq_refl); [lra | lra | exact discrete_agent_brakes].
Defined.

(** ** The constructor and the configuration dictionary *)

Lemma setdefault_lookup (key : string) (v : pyval) (d : gmap string pyval)
    (k : string) :
  setdefault key v d !! k =
  match d !! k with
  | Some u => Some u
  | None => if decide (k = key) then Some v else None
  end.
Proof.
  unfold setdefault. destruct (d !! key) as [u|] eqn:Hkey.
  - destruct (d !! k) as [u'|] eqn:Hk; [reflexivity|].
    destruct (decide (k = key)) as [->|]; [congruence | reflexivity].
  - destruct (decide (k = key)) as [->|Hne].
    + rewrite lookup_insert_eq, Hkey. reflexivity.
    + rewrite lookup_insert_ne by congruence. destruct (d !! k); reflexivity.
Qed.

Lemma set_default_env_config_lookup (cfg : gmap string pyval) (k : string) :
  set_default_env_config cfg !! k =
  match cfg !! k with
  | Some v => Some v
  | None =>
      if decide (k = "render_mode") then Some PyNone
      else if decide (k = "id") then Some (PyStr "LunarLander-v2") else None
  end.
Proof.
  unfold set_default_env_config. rewrite !setdefault_lookup.
  destruct (cfg !! k); [reflexivity|].
  destruct (decide (k = "render_mode")) as [->|]; reflexivity.
Qed.

(** X1: [set_default_env_config] never overwrites an entry of the caller's
    dictionary, adds [render_mode = None] and [id = "LunarLander-v2"] when
    they are missing, and adds nothing else: in particular no default for
    ['continuous']. *)
Theorem set_default_env_config_entries (cfg : gmap string pyval) :
  (forall (k : string) (v : pyval),
     cfg !! k = Some v -> set_default_env_config cfg !! k = Some v)
  /\ (cfg !! "render_mode" = None ->
      set_default_env_config cfg !! "render_mode" = Some PyNone)
  /\ (cfg !! "id" = None ->
      set_default_env_config cfg !! "id" = Some (PyStr "LunarLander-v2"))
  /\ (forall k : string,
        k <> "render_mode" -> k <> "id" -> cfg !! k = None ->
        set_default_env_config cfg !! k = None).
Proof.
  repeat split.
  - intros k v Hk. rewrite set_default_env_config_lookup, Hk. reflexivity.
  - intros Hk. rewrite set_default_env_config_lookup, Hk. reflexivity.
  - intros Hk. rewrite set_default_env_config_lookup, Hk. reflexivity.
  - intros k Hr Hi Hk. rewrite set_default_env_config_lookup, Hk.
    destruct (decide (k = "render_mode")); [contradiction|].
    destruct (decide (k = "id")); [contradiction | reflexivity].
Qed.

(** X2: applying the defaults twice is applying them once: an agent built
    from the configuration of another agent has the same configuration. *)
Theorem set_default_env_config_idempotent (cfg : gmap string pyval) :
  set_default_env_config (set_default_env_config cfg) =
    set_default_env_config cfg
  /\ env_config (init (env_config (init cfg))) = env_config (init cfg).
Proof.
  assert (H : set_default_env_config (set_default_env_config cfg) =
              set_default_env_config cfg).
  { apply map_eq; intros k. rewrite !set_default_env_config_lookup.
    destruct (cfg !! k); [reflexivity|].
    destruct (decide (k = "render_mode")); [reflexivity|].
    destruct (decide (k = "id")); reflexivity. }
  split; [exact H | exact H].
Qed.

(** X3: the agent takes its observations for images exactly when the
    caller's dictionary has the text ["rgb_array"] as [render_mode]. *)
Theorem observation_as_rgb_iff (cfg : gmap string pyval) :
  observation_as_rgb (init cfg) = true <->
  cfg !! "render_mode" = Some (PyStr "rgb_array").
Proof.
  unfold init; cbn [observation_as_rgb].
  rewrite set_default_env_config_lookup.
  destruct (cfg !! "render_mode") as [[| | | |s]|]; cbn;
    try (split; [discriminate | intros H; discriminate H]).
  rewrite String.eqb_eq. split; [intros ->; reflexivity | congruence].
Qed.

(** ** Observations of other lengths *)

(** The raw command when the observation has entries beyond the eighth. *)
Lemma boosters_long (x y xv yv theta omega lc rc : R) (more : list R) :
  boosters (x :: y :: xv :: yv :: theta :: omega :: lc :: rc :: more) =
  boosters [x; y; xv; yv; theta; omega; lc; rc].
Proof.
  unfold boosters, not_landed, getitem; cbn [lookup list_lookup obind].
  reflexivity.
Qed.

(** With seven entries, the last one decides. *)
Lemma boosters_seven (x y xv yv theta omega lc : R) :
  boosters [x; y; xv; yv; theta; omega; lc] =
  if Reqb lc 0
  then boosters [x; y; xv; yv; theta; omega; lc; lc]
  else Raised IndexError.
Proof.
  unfold boosters, not_landed, getitem; cbn [lookup list_lookup obind].
  destruct (Reqb lc 0); reflexivity.
Qed.

Lemma boosters_short (observation : list R) :
  (length observation < 7)%nat -> boosters observation = Raised IndexError.
Proof.
  intros Hlen.
  destruct observation as [|x [|y [|xv [|yv [|theta [|omega [|lc l]]]]]]];
    try reflexivity.
  cbn [length] in Hlen. lia.
Qed.

(** The only exception of the first stage is [IndexError], and only an
    observation of fewer than eight entries raises it. *)
Lemma boosters_raises (observation : list R) (e : exn) :
  boosters observation = Raised e ->
  e = IndexError /\ (length observation < 8)%nat.
Proof.
  destruct (Nat.lt_ge_cases (length observation) 7) as [Hlt|Hge].
  - rewrite (boosters_short _ Hlt). intros [= <-]. split; [reflexivity | lia].
  - destruct observation as [|x [|y [|xv [|yv [|theta [|omega [|lc [|rc l]]]]]]]];
      cbn [length] in Hge; try lia.
    + rewrite boosters_seven. destruct (Reqb lc 0).
      * rewrite boosters_eq. discriminate.
      * intros [= <-]. split; [reflexivity | cbn [length]; lia].
    + rewrite boosters_long, boosters_eq. discriminate.
Qed.

(** The first stage raises exactly on the observations of fewer than seven
    entries and on those of seven entries whose last one is not 0. *)
Lemma boosters_cases (observation : list R) :
  (((length observation < 7)%nat
    \/ (length observation = 7%nat /\ observation !! 6%nat <> Some 0))
   /\ boosters observation = Raised IndexError)
  \/ (~ ((length observation < 7)%nat
         \/ (length observation = 7%nat /\ observation !! 6%nat <> Some 0))
      /\ exists b : Boosters, boosters observation = Returned b).
Proof.
  destruct (Nat.lt_ge_cases (length observation) 7) as [Hlt|Hge].
  { left. split; [left; exact Hlt | exact (boosters_short _ Hlt)]. }
  destruct observation as [|x [|y [|xv [|yv [|theta [|omega [|lc [|rc l]]]]]]]];
    cbn [length] in Hge; try lia.
  - rewrite boosters_seven. cbn [length lookup list_lookup].
    unfold Reqb. destruct (Req_dec_T lc 0) as [->|Hne].
    + right. split.
      * intros [Hlt | [_ Hc]]; [lia | congruence].
      * rewrite boosters_eq. eexists; reflexivity.
    + left. split; [|reflexivity]. right. split; [reflexivity | congruence].
  - right. split.
    + cbn [length]. intros [Hlt | [Hlen _]]; lia.
    + rewrite boosters_long, boosters_eq. eexists; reflexivity.
Qed.

Section Robustness.

Variable formatter : gmap string pyval -> gmap string pyval.
Variable accepts : gmap string pyval -> bool.

(** X4: the constructor gives the action space no default, so an agent
    built from a dictionary without ['continuous'] fails on every call with
    a [KeyError], and it does so only after a simulator was made and
    closed. *)
Theorem unconfigured_mode_raises (cfg : gmap string pyval)
    (x y xv yv theta omega lc rc : R) (w : World) :
  cfg !! "continuous" = None ->
  accepts (formatter (set_default_env_config cfg)) = true ->
  get_action formatter accepts (init cfg)
    [x; y; xv; yv; theta; omega; lc; rc] w =
  (Raised (KeyError "continuous"),
   made_and_closed (formatter (set_default_env_config cfg)) w).
Proof.
  intros Hc Hacc. rewrite get_action_eq, boosters_eq.
  unfold init; cbn [env_config]. rewrite Hacc.
  rewrite set_default_env_config_lookup, Hc. reflexivity.
Qed.

(** X5: [get_action] raises [IndexError], with the world untouched, exactly
    on the observations of fewer than seven entries and on those of seven
    entries whose last one is not 0. *)
Theorem index_error_iff (self : LunarLanderAgent) (observation : list R)
    (w : World) :
  get_action formatter accepts self observation w = (Raised IndexError, w) <->
  (length observation < 7)%nat
  \/ (length observation = 7%nat /\ observation !! 6%nat <> Some 0).
Proof.
  rewrite get_action_eq.
  destruct (Nat.lt_ge_cases (length observation) 7) as [Hlt|Hge].
  { rewrite (boosters_short _ Hlt). split; [left; exact Hlt | reflexivity]. }
  destruct observation as [|x [|y [|xv [|yv [|theta [|omega [|lc [|rc l]]]]]]]];
    cbn [length] in Hge; try lia.
  - rewrite boosters_seven. cbn [length lookup list_lookup].
    unfold Reqb. destruct (Req_dec_T lc 0) as [->|Hne].
    + rewrite boosters_eq. split.
      * destruct (accepts _); [|discriminate].
        destruct (env_config self !! "continuous") as [c|]; [|discriminate].
        destruct (truthy c); discriminate.
      * intros [Hlt | [_ Hc]]; [lia | congruence].
    + split; [|reflexivity]. intros _. right. split; [reflexivity|congruence].
  - rewrite boosters_long, boosters_eq. cbn [length]. split.
    + destruct (accepts _); [|discriminate].
      destruct (env_config self !! "continuous") as [c|]; [|discriminate].
      destruct (truthy c); discriminate.
    + intros [Hlt | [Hlen _]]; lia.
Qed.

(** X6: entries beyond the eighth are never read: the call behaves as on
    the first eight. *)
Theorem trailing_entries_ignored (self : LunarLanderAgent)
    (x y xv yv theta omega lc rc : R) (more : list R) (w : World) :
  get_action formatter accepts self
    ([x; y; xv; yv; theta; omega; lc; rc] ++ more) w =
  get_action formatter accepts self [x; y; xv; yv; theta; omega; lc; rc] w.
Proof.
  rewrite !get_action_eq. cbn [app]. rewrite boosters_long. reflexivity.
Qed.

(** X7: when the first contact flag is False the second one is not read:
    an observation of seven entries ending in 0 is accepted, and treated as
    the observation of eight entries with any second flag. *)
Theorem second_flag_not_read (self : LunarLanderAgent)
    (x y xv yv theta omega rc : R) (w : World) :
  get_action formatter accepts self [x; y; xv; yv; theta; omega; 0] w =
  get_action formatter accepts self [x; y; xv; yv; theta; omega; 0; rc] w.
Proof.
  rewrite !get_action_eq, boosters_seven, !boosters_eq.
  rewrite (Reqb_true 0 0) by reflexivity. reflexivity.
Qed.

(** X8: what [get_action] does, in the order of its checks, on an
    observation that is a vector of numbers: a vector that is too short
    raises [IndexError] and nothing has happened; otherwise a configuration
    that the simulator library rejects raises its error and nothing is left
    behind; otherwise a missing ['continuous'] entry raises [KeyError] after
    a simulator was made and closed; otherwise the call returns. *)
Theorem get_action_failure_order (self : LunarLanderAgent)
    (observation : list R) (w : World) :
  let short :=
    (length observation < 7)%nat
    \/ (length observation = 7%nat /\ observation !! 6%nat <> Some 0) in
  let r := get_action formatter accepts self observation w in
  let cfg := formatter (env_config self) in
  (short -> r = (Raised IndexError, w))
  /\ (~ short -> accepts cfg = false -> r = (Raised GymError, w))
  /\ (~ short -> accepts cfg = true ->
      env_config self !! "continuous" = None ->
      r = (Raised (KeyError "continuous"), made_and_closed cfg w))
  /\ (~ short -> accepts cfg = true ->
      forall c : pyval, env_config self !! "continuous" = Some c ->
      exists a : action, r = (Returned a, made_and_closed cfg w)).
Proof.
  intros short r cfg; subst short r cfg. rewrite get_action_eq.
  destruct (boosters_cases observation) as [[Hs Hb]|[Hs [b Hb]]]; rewrite Hb.
  - split; [reflexivity|]. repeat split; intros; contradiction.
  - split; [intros; contradiction|].
    split; [intros _ Hacc; rewrite Hacc; reflexivity|].
    split; intros _ Hacc; rewrite Hacc.
    + intros Hc; rewrite Hc. reflexivity.
    + intros c Hc; rewrite Hc. destruct (truthy c); eexists; reflexivity.
Qed.

End Robustness.

(** ** Simulators made and closed *)

Lemma open_envs_snoc (t : list event) (e : event) :
  open_envs (t ++ [e]) = track (open_envs t) e.
Proof. unfold open_envs. apply foldl_snoc. Qed.

(** An open simulator has a handle of the trace. *)
Lemma open_envs_below (t : list event) (n : nat) :
  Forall (fun e => (event_env e < n)%nat) t ->
  forall h : nat, h ∈ open_envs t -> (h < n)%nat.
Proof.
  induction t as [|e t IH] using rev_ind; intros Hall h Hin.
  - unfold open_envs in Hin; cbn [foldl] in Hin.
    apply elem_of_empty in Hin. contradiction.
  - apply Forall_app in Hall as [Ht He]. rewrite Forall_singleton in He.
    rewrite open_envs_snoc in Hin.
    destruct e as [cfg env|env|env|env|env]; cbn [track event_env] in *;
      try (apply IH; assumption).
    + apply elem_of_union in Hin as [Hin|Hin]; [apply IH; assumption|].
      apply elem_of_singleton in Hin. subst h. exact He.
    + apply elem_of_difference in Hin as [Hin _]. apply IH; assumption.
Qed.

Lemma world_ok_fresh (w : World) :
  world_ok w -> next_env w ∉ open_envs (trace w).
Proof.
  intros Hok Hin. apply (open_envs_below _ _ Hok) in Hin. lia.
Qed.

Lemma world_ok_made_and_closed (cfg : gmap string pyval) (w : World) :
  world_ok w ->
  world_ok (made_and_closed cfg w)
  /\ open_envs (trace (made_and_closed cfg w)) = open_envs (trace w).
Proof.
  intros Hok. pose proof (world_ok_fresh w Hok) as Hfresh.
  unfold made_and_closed; cbn [trace]. split.
  - unfold world_ok; cbn [trace next_env].
    rewrite !Forall_app, !Forall_singleton; cbn [event_env].
    repeat split; try lia.
    eapply Forall_impl; [exact Hok|]. cbn. intros e He. lia.
  - rewrite !open_envs_snoc; cbn [track]. apply set_eq; intros h.
    rewrite elem_of_difference, elem_of_union, elem_of_singleton. split.
    + intros [[Hin|Heq] Hne]; [exact Hin | contradiction].
    + intros Hin. split; [left; exact Hin | intros ->; contradiction].
Qed.

Section Simulators.

Variable formatter : gmap string pyval -> gmap string pyval.
Variable accepts : gmap string pyval -> bool.

(** X9: [make_env] asks the simulator library for a simulator of the
    formatted dictionary, the agent's own when no dictionary is given; the
    handle it returns is new: no earlier event is about it, and it is open
    afterwards together with the simulators that were open before. *)
Theorem make_env_fresh_handle (self : LunarLanderAgent)
    (arg : option (gmap string pyval)) (w w' : World) (h : nat) :
  world_ok w ->
  make_env formatter accepts self arg w = (Returned h, w') ->
  trace w' = trace w ++ [EvMake (formatter (default (env_config self) arg)) h]
  /\ Forall (fun e => event_env e <> h) (trace w)
  /\ open_envs (trace w') = open_envs (trace w) ∪ {[ h ]}
  /\ world_ok w'.
Proof.
  intros Hok. unfold make_env, bind, gym_make, ret.
  replace (match arg with Some c => c | None => env_config self end)
    with (default (env_config self) arg) by (destruct arg; reflexivity).
  destruct (accepts _); [|discriminate].
  intros [= <- <-]. cbn [trace next_env]. repeat split.
  - eapply Forall_impl; [exact Hok|]. cbn. intros e He. lia.
  - apply open_envs_snoc.
  - unfold world_ok; cbn [trace next_env].
    rewrite Forall_app, Forall_singleton; cbn [event_env]. split; [|lia].
    eapply Forall_impl; [exact Hok|]. cbn. intros e He. lia.
Qed.

(** X10: [get_action] leaves open exactly the simulators that were open
    before the call, whether it returns or raises, and keeps the world well
    formed: the simulator it makes is closed before the action space is
    read. *)
Theorem get_action_leaves_nothing_open (self : LunarLanderAgent)
    (observation : list R) (w : World) :
  world_ok w ->
  world_ok (snd (get_action formatter accepts self observation w))
  /\ open_envs (trace (snd (get_action formatter accepts self observation w))) =
     open_envs (trace w)
  /\ (next_env w <= next_env (snd (get_action formatter accepts self observation w)))%nat.
Proof.
  intros Hok.
  destruct (world_ok_made_and_closed (formatter (env_config self)) w Hok)
    as [Hok' Hopen].
  rewrite get_action_eq.
  destruct (boosters observation) as [b|e]; [|auto].
  destruct (accepts _); [|auto].
  destruct (env_config self !! "continuous") as [c|];
    [destruct (truthy c)|]; cbn [snd]; (split; [exact Hok'|]);
    (split; [exact Hopen | cbn; lia]).
Qed.

End Simulators.

(** ** The shape of the policy *)

(** Quantizing a raw command whose lateral component changed sign
    exchanges the two side engines. *)
Lemma quantized_mirror (a0 a1 y yv : R) :
  ActInt (quantized a0 (- a1) y yv) = mirror_action (ActInt (quantized a0 a1 y yv)).
Proof.
  unfold quantized. rewrite Rabs_Ropp.
  destruct (Rgtb a0 (Rabs a1)); [reflexivity|].
  destruct (Rltb y 0.05); [destruct (Rltb yv (- 0.1)); reflexivity|].
  destruct (Rgtb yv (- 0.08) && Rgtb y 0.15);
    destruct (Rltb yv (- 0.1));
    unfold Rltb, Rgtb; case_R; try reflexivity; lra.
Qed.

(** The main engine is chosen only when the lander goes down. *)
Lemma quantized_main (flying : bool) (xb y yv : R) :
  quantized
    (if flying
     then if Rltb yv 0
          then Rabs yv - (if Rgtb y 0.10 then y / 7 else - 0.10) else 0
     else 0) xb y yv = 2%Z ->
  yv < 0.
Proof.
  unfold quantized.
  destruct (Rgtb _ (Rabs xb)) eqn:Hdom.
  - intros _. unfold Rltb in Hdom. destruct (Rlt_dec yv 0); [assumption|].
    exfalso. assert (Hno : Rgtb 0 (Rabs xb) = false).
    { apply Rgtb_false. pose proof (Rabs_pos xb). lra. }
    destruct flying; congruence.
  - unfold Rltb, Rgtb. intros H.
    case_R_in H; cbn [andb] in H; try discriminate H; lra.
Qed.

(** A side engine is chosen only from 0.05 up, and by the sign of the
    lateral component. *)
Lemma quantized_side (a0 a1 y yv : R) (n : Z) :
  quantized a0 a1 y yv = n ->
  (n = 1%Z -> y >= 0.05 /\ a1 < - 0.5 /\ a0 <= Rabs a1)
  /\ (n = 3%Z -> y >= 0.05 /\ a1 > 0.5 /\ a0 <= Rabs a1).
Proof.
  unfold quantized, Rltb, Rgtb. intros H.
  destruct (Rgt_dec a0 (Rabs a1)).
  { subst n. split; discriminate. }
  case_R_in H; cbn [andb] in H; subst n;
    (split; intros Hn; try discriminate Hn; repeat split; lra).
Qed.

Section Shape.

Variable formatter : gmap string pyval -> gmap string pyval.
Variable accepts : gmap string pyval -> bool.

(** X11: the policy is symmetric: on the mirrored lander (position, speed,
    angle and spin with the opposite sign, legs exchanged) it returns the
    mirrored command, FIRE_LEFT and FIRE_RIGHT exchanged or the lateral
    thrust with the opposite sign, and raises what it raises on the
    lander. *)
Theorem mirror_symmetry (self : LunarLanderAgent)
    (x y xv yv theta omega lc rc : R) (w : World) :
  fst (get_action formatter accepts self
         (mirror [x; y; xv; yv; theta; omega; lc; rc]) w) =
  mirror_outcome
    (fst (get_action formatter accepts self
            [x; y; xv; yv; theta; omega; lc; rc] w)).
Proof.
  cbn [mirror]. rewrite !get_action_eq, !boosters_eq.
  destruct (accepts _); [|reflexivity].
  cbn [yBooster xBooster loc_y loc_yv]. rewrite sin_neg.
  replace (- sin theta * 2.5 + - omega * 2.5 - (- x * 3 + - xv * 4))
    with (- (sin theta * 2.5 + omega * 2.5 - (x * 3 + xv * 4))) by lra.
  rewrite (orb_comm (Reqb rc 0)).
  destruct (env_config self !! "continuous") as [c|]; [|reflexivity].
  destruct (truthy c); cbn [fst mirror_outcome]; [reflexivity|].
  rewrite quantized_mirror. reflexivity.
Qed.

(** X12: in the discrete action space FIRE_MAIN (2) is returned only when
    the lander goes down ([yv < 0]): hovering or climbing, the main engine
    is left off. *)
Theorem main_engine_only_when_descending (self : LunarLanderAgent)
    (x y xv yv theta omega lc rc : R) (w : World) :
  fst (get_action formatter accepts self
         [x; y; xv; yv; theta; omega; lc; rc] w) = Returned (ActInt 2) ->
  yv < 0.
Proof.
  rewrite get_action_eq, boosters_eq.
  destruct (accepts _); [|discriminate].
  destruct (env_config self !! "continuous") as [c|]; [|discriminate].
  destruct (truthy c); [discriminate|].
  cbn [fst yBooster xBooster loc_y loc_yv]. intros [= H].
  exact (quantized_main _ _ _ _ H).
Qed.

(** X13: a side engine is fired only from [y = 0.05] up, only when the
    vertical term does not exceed the lateral one in size, and on the side
    the lateral term asks for: FIRE_LEFT (1) when it is below -0.5,
    FIRE_RIGHT (3) when it is above 0.5. *)
Theorem side_engines_only_above_ground (self : LunarLanderAgent)
    (x y xv yv theta omega lc rc : R) (w : World) (n : Z) (b : Boosters) :
  boosters [x; y; xv; yv; theta; omega; lc; rc] = Returned b ->
  fst (get_action formatter accepts self
         [x; y; xv; yv; theta; omega; lc; rc] w) = Returned (ActInt n) ->
  (n = 1%Z -> y >= 0.05 /\ xBooster b < - 0.5 /\ yBooster b <= Rabs (xBooster b))
  /\ (n = 3%Z -> y >= 0.05 /\ xBooster b > 0.5 /\ yBooster b <= Rabs (xBooster b)).
Proof.
  intros Hb. rewrite get_action_eq, Hb.
  rewrite boosters_eq in Hb. injection Hb as <-.
  destruct (accepts _); [|discriminate].
  destruct (env_config self !! "continuous") as [c|]; [|discriminate].
  destruct (truthy c); [discriminate|].
  cbn [fst yBooster xBooster loc_y loc_yv]. intros [= H].
  exact (quantized_side _ _ _ _ _ H).
Qed.

End Shape.

(** X14: the vertical term never grows with altitude: of two observations
    that differ in [y] only, the lower one gets at least as much main
    thrust. *)
Theorem braking_grows_near_ground (x xv yv theta omega lc rc y1 y2 : R) :
  y1 <= y2 ->
  exists b1 b2 : Boosters,
    boosters [x; y1; xv; yv; theta; omega; lc; rc] = Returned b1
    /\ boosters [x; y2; xv; yv; theta; omega; lc; rc] = Returned b2
    /\ yBooster b2 <= yBooster b1.
Proof.
  intros Hy. eexists; eexists.
  split; [apply boosters_eq|]. split; [apply boosters_eq|].
  cbn [yBooster]. destruct (Reqb lc 0 || Reqb rc 0); [|lra].
  unfold Rltb, Rgtb; case_R; lra.
Qed.

(** ** More runs of the sample agents *)

Lemma busy_world_ok : world_ok busy_world.
Proof.
  unfold world_ok, busy_world; cbn [trace next_env].
  repeat constructor; cbn [event_env]; lia.
Qed.

(** Off the pad to the right, at rest: the discrete agent fires the left
    engine. *)
Lemma discrete_agent_steers :
  fst (get_action plain_formatter lenient_gym discrete_agent
         [1; 1; 0; 0; 0; 0; 1; 1] fresh_world) = Returned (ActInt 1).
Proof. run_get_action discrete_agent_mode. reflexivity. Qed.

(** C7, refuted as stated: with a simulator library that rejects the
    configuration the call raises, on an observation of eight entries and
    with the action space configured. *)
Lemma rejected_configuration_raises :
  fst (get_action plain_formatter closed_gym discrete_agent
         [0; 1; 0; 0; 0; 0; 0; 0] fresh_world) = Raised GymError.
Proof. rewrite get_action_eq, boosters_eq. reflexivity. Qed.

Lemma unconfigured_mode_raises_witness :
  get_action plain_formatter lenient_gym (init ∅)
    [0; 1; 0; 0; 0; 0; 0; 0] fresh_world =
  (Raised (KeyError "continuous"),
   made_and_closed (plain_formatter (set_default_env_config ∅)) fresh_world).
Proof.
  exact (unconfigured_mode_raises plain_formatter lenient_gym ∅
           0 1 0 0 0 0 0 0 fresh_world eq_refl eq_refl).
Defined.

Lemma make_env_fresh_handle_witness :
  Forall (fun e => event_env e <> 2%nat) (trace busy_world)
  /\ open_envs (trace busy_world ++ [EvMake (env_config discrete_agent) 2]) =
     open_envs (trace busy_world) ∪ {[ 2%nat ]}.
Proof.
  pose proof (make_env_fresh_handle plain_formatter lenient_gym discrete_agent
                None busy_world
                (mkWorld 3 (trace busy_world ++ [EvMake (env_config discrete_agent) 2]))
                2 busy_world_ok eq_refl) as (_ & Hnew & Hopen & _).
  split; [exact Hnew | exact Hopen].
Defined.

Lemma get_action_leaves_nothing_open_witness :
  world_ok (snd (get_action plain_formatter lenient_gym discrete_agent
                   [0; 1; 0; 0; 0; 0; 0; 0] busy_world))
  /\ open_envs (trace (snd (get_action plain_formatter lenient_gym discrete_agent
                              [0; 1; 0; 0; 0; 0; 0; 0] busy_world))) =
     open_envs (trace busy_world)
  /\ (next_env busy_world <=
      next_env (snd (get_action plain_formatter lenient_gym discrete_agent
                       [0; 1; 0; 0; 0; 0; 0; 0]%R busy_world)))%nat.
Proof.
  exact (get_action_leaves_nothing_open plain_formatter lenient_gym discrete_agent
           [0; 1; 0; 0; 0; 0; 0; 0] busy_world busy_world_ok).
Defined.

Lemma main_engine_only_when_descending_witness : - 0.5 < 0.
Proof.
  exact (main_engine_only_when_descending plain_formatter lenient_gym
           discrete_agent 0 0 0 (- 0.5) 0 0 1 1 fresh_world
           discrete_agent_brakes).
Defined.

Lemma side_engines_only_above_ground_witness :
  exists b : Boosters,
    boosters [1; 1; 0; 0; 0; 0; 1; 1] = Returned b
    /\ 1 >= 0.05 /\ xBooster b < - 0.5 /\ yBooster b <= Rabs (xBooster b).
Proof.
  eexists. split; [apply boosters_eq|].
  exact (proj1 (side_engines_only_above_ground plain_formatter lenient_gym
                  discrete_agent 1 1 0 0 0 0 1 1 fresh_world 1 _
                  (boosters_eq 1 1 0 0 0 0 1 1) discrete_agent_steers) eq_refl).
Defined.

Lemma braking_grows_near_ground_witness :
  exists b1 b2 : Boosters,
    boosters [0; 0.05; 0; - 1; 0; 0; 0; 0] = Returned b1
    /\ boosters [0; 0.7; 0; - 1; 0; 0; 0; 0] = Returned b2
    /\ yBooster b2 <= yBooster b1.
Proof.
  apply (braking_grows_near_ground 0 0 (- 1) 0 0 0 0 0.05 0.7). lra.
Defined.
